(** * Analise-CAC: the metric calculator and the campaign dashboard of [app.py]

    A shallow embedding of [src/app.py].  The data frame is a list of rows, a
    column operation is the same operation on every row, and a float64 cell is
    one of Rocq's primitive binary64 floats, so that division by zero,
    overflow, [inf] and [NaN] behave as they do in pandas.

    What the embedding fixes that the script leaves to its libraries:
    - pandas 2.x with object-dtype text columns: [fillna(0)] fills a missing
      text cell with the integer [0];
    - the two identifier columns are read as text and the six numeric
      columns as float64; a column that [read_csv] reads as int64 adds and
      sums in 64-bit integers, and only its quotients are binary64;
    - [sum] and [mean] add the cells from left to right, starting from [0];
      [Series.sum] may add in blocks and the [groupby] aggregations add with
      compensation, which can change how an inexact sum is rounded and
      nothing else;
    - a text is a [string] of bytes (UTF-8), whose byte order is Python's
      code point order. *)

From Stdlib Require Import Floats ZArith NArith List String Ascii Bool Lia.
From Stdlib Require Import Sorting.Sorted Sorting.Permutation.
Import ListNotations.

Local Open Scope float_scope.
Local Open Scope list_scope.

(** ** Cells *)

(** A cell of a numeric column as [pd.read_csv] hands it over: a number (a
    blank cell is the number [NaN]) or a text that is not a number. *)
Inductive celula : Type :=
| Numero (x : float)
| NaoNumerico (s : string).

(** A cell of a text column after the final [fillna(0)]: the text, or the
    integer [0] that replaced a missing one. *)
Inductive rotulo : Type :=
| Texto (s : string)
| Int0.

(** [pd.to_numeric(..., errors='coerce')] on one cell. *)
Definition to_numeric (c : celula) : float :=
  match c with
  | Numero x => x
  | NaoNumerico _ => nan
  end.

(** [.fillna(v)] on one cell that may hold [pd.NA] ([None]) or [NaN]. *)
Definition fillna (v : float) (c : option float) : float :=
  match c with
  | None => v
  | Some x => if is_nan x then v else x
  end.

(** [.replace([float('inf'), -float('inf')], pd.NA)] on one cell. *)
Definition replace_inf (x : float) : option float :=
  if (x =? infinity) || (x =? neg_infinity) then None else Some x.

(** Line 23: [pd.to_numeric(df[col], errors='coerce').fillna(0)]. *)
Definition numerico (c : celula) : float := fillna 0 (Some (to_numeric c)).

(** Line 46 on a numeric cell: [.replace([inf, -inf], pd.NA).fillna(0)]. *)
Definition tratar (x : float) : float := fillna 0 (replace_inf x).

(** Line 46 on a text cell: [replace] leaves it alone, [fillna(0)] fills a
    missing one. *)
Definition tratar_rotulo (c : option string) : rotulo :=
  match c with
  | Some s => Texto s
  | None => Int0
  end.

(** Line 29: [lambda x: x if x <= 100 else 0]. *)
Definition limitar_ctr (x : float) : float := if x <=? 100 then x else 0.

(** ** Rows *)

(** A row of [dados_metricas_teste.csv]. *)
Record linha_csv : Type := {
  csv_Plataforma : option string;
  csv_Campanha : option string;
  csv_Investimento : celula;
  csv_Impressoes : celula;
  csv_Cliques : celula;
  csv_Leads : celula;
  csv_Novos_Clientes : celula;
  csv_Outros_Custos : celula
}.

(** A row of the data frame [carregar_e_processar_dados] returns. *)
Record registro : Type := {
  Plataforma : rotulo;
  Campanha : rotulo;
  Investimento : float;
  Impressoes : float;
  Cliques : float;
  Leads : float;
  Novos_Clientes : float;
  Outros_Custos : float;
  CTR : float;
  CPC : float;
  CPM : float;
  CPL : float;
  Custo_Total_Diario : float;
  CAC_Diario : float
}.

(** ** The metric calculator, [carregar_e_processar_dados] *)

(** Line 28, before the cap: [(Cliques / Impressoes) * 100]. *)
Definition ctr_bruto (l : linha_csv) : float :=
  (numerico (csv_Cliques l) / numerico (csv_Impressoes l)) * 100.

(** Lines 21 to 46 on one row: the six numeric columns are coerced, the
    derived columns are computed from the coerced values, and the last line
    treats every column of the row. *)
Definition processar_linha (l : linha_csv) : registro :=
  let investimento := numerico (csv_Investimento l) in
  let impressoes := numerico (csv_Impressoes l) in
  let cliques := numerico (csv_Cliques l) in
  let leads := numerico (csv_Leads l) in
  let novos_clientes := numerico (csv_Novos_Clientes l) in
  let outros_custos := numerico (csv_Outros_Custos l) in
  let ctr := limitar_ctr ((cliques / impressoes) * 100) in
  let cpc := investimento / cliques in
  let cpm := (investimento / impressoes) * 1000 in
  let cpl := investimento / leads in
  let custo_total_diario := investimento + outros_custos in
  let cac_diario := custo_total_diario / novos_clientes in
  {| Plataforma := tratar_rotulo (csv_Plataforma l);
     Campanha := tratar_rotulo (csv_Campanha l);
     Investimento := tratar investimento;
     Impressoes := tratar impressoes;
     Cliques := tratar cliques;
     Leads := tratar leads;
     Novos_Clientes := tratar novos_clientes;
     Outros_Custos := tratar outros_custos;
     CTR := tratar ctr;
     CPC := tratar cpc;
     CPM := tratar cpm;
     CPL := tratar cpl;
     Custo_Total_Diario := tratar custo_total_diario;
     CAC_Diario := tratar cac_diario |}.

Definition carregar_e_processar_dados (csv : list linha_csv) : list registro :=
  map processar_linha csv.

(** A row with all six numbers given. *)
Definition linha (plataforma campanha : string)
    (investimento impressoes cliques leads novos_clientes outros_custos : float)
    : linha_csv :=
  {| csv_Plataforma := Some plataforma;
     csv_Campanha := Some campanha;
     csv_Investimento := Numero investimento;
     csv_Impressoes := Numero impressoes;
     csv_Cliques := Numero cliques;
     csv_Leads := Numero leads;
     csv_Novos_Clientes := Numero novos_clientes;
     csv_Outros_Custos := Numero outros_custos |}.

(** ** The sidebar filters *)

Definition rotulo_eqb (a b : rotulo) : bool :=
  match a, b with
  | Texto s, Texto t => String.eqb s t
  | Int0, Int0 => true
  | _, _ => false
  end.

(** [Series.isin(values)] on one cell. *)
Definition isin (x : rotulo) (values : list rotulo) : bool :=
  existsb (rotulo_eqb x) values.

(** The distinct items of a column, in the order of first occurrence. *)
Definition primeiras_ocorrencias {A : Type} (eqb : A -> A -> bool)
    (col : list A) : list A :=
  fold_left
    (fun vistos x => if existsb (eqb x) vistos then vistos else vistos ++ [x])
    col [].

(** [Series.unique()]. *)
Definition unique (col : list rotulo) : list rotulo :=
  primeiras_ocorrencias rotulo_eqb col.

(** Lines 58 to 62: what the platform multiselect offers and selects by
    default. *)
Definition plataformas_padrao (df_metricas : list registro) : list rotulo :=
  unique (map Plataforma df_metricas).

(** Lines 65 to 69: the campaigns of the selected platforms. *)
Definition campanhas_padrao (df_metricas : list registro)
    (plataforma_selecionada : list rotulo) : list rotulo :=
  unique (map Campanha
    (filter (fun r => isin (Plataforma r) plataforma_selecionada) df_metricas)).

(** Lines 72 to 75. *)
Definition filtrar (plataforma_selecionada campanha_selecionada : list rotulo)
    (df_metricas : list registro) : list registro :=
  filter (fun r => isin (Plataforma r) plataforma_selecionada
                   && isin (Campanha r) campanha_selecionada) df_metricas.

(** ** Sums and means *)

(** [Series.sum()]. *)
Definition soma (col : list float) : float := fold_left PrimFloat.add col 0.

(** The number of cells of a column, as a float. *)
Definition contagem (col : list float) : float :=
  PrimFloat.of_uint63 (Uint63.of_Z (Z.of_nat (List.length col))).

(** [Series.mean()]: [NaN] on an empty column. *)
Definition media (col : list float) : float := soma col / contagem col.

(** ** The KPI panel, lines 82 to 92 *)

Record kpis : Type := {
  total_investimento : float;
  total_clientes : float;
  total_leads : float;
  cpc_medio : float;
  ctr_medio : float;
  cpl_medio : float;
  cac_geral : float
}.

Definition calcular_kpis (df_filtrado : list registro) : kpis :=
  let total_investimento := soma (map Investimento df_filtrado) in
  let total_clientes := soma (map Novos_Clientes df_filtrado) in
  let total_leads := soma (map Leads df_filtrado) in
  {| total_investimento := total_investimento;
     total_clientes := total_clientes;
     total_leads := total_leads;
     cpc_medio := media (map CPC df_filtrado);
     ctr_medio := media (map CTR df_filtrado);
     cpl_medio :=
       if 0 <? total_leads then total_investimento / total_leads else 0;
     cac_geral :=
       if 0 <? total_clientes
       then soma (map Custo_Total_Diario df_filtrado) / total_clientes
       else 0 |}.

(** ** The campaign table, lines 105 to 116 *)

(** A row of [df_campanhas]; the columns ['CPL Médio'] and ['CTR Médio (%)']
    are [CPL_Medio] and [CTR_Medio]. *)
Module Campanhas.
Record resumo : Type := {
  Plataforma : rotulo;
  Campanha : rotulo;
  Investimento : float;
  Leads : float;
  Clientes : float;
  CPL_Medio : float;
  CTR_Medio : float
}.
End Campanhas.

(** A group key of [groupby(['Plataforma', 'Campanha'])]. *)
Definition chave : Type := (rotulo * rotulo)%type.

Definition chave_de (r : registro) : chave := (Plataforma r, Campanha r).

Definition chave_eqb (a b : chave) : bool :=
  rotulo_eqb (fst a) (fst b) && rotulo_eqb (snd a) (snd b).

(** The order in which pandas sorts the values of a key column: numbers
    before texts, texts by code point. *)
Definition rotulo_compare (a b : rotulo) : comparison :=
  match a, b with
  | Int0, Int0 => Eq
  | Int0, Texto _ => Lt
  | Texto _, Int0 => Gt
  | Texto s, Texto t => String.compare s t
  end.

(** Group keys are ordered by platform, then by campaign. *)
Definition chave_compare (a b : chave) : comparison :=
  match rotulo_compare (fst a) (fst b) with
  | Eq => rotulo_compare (snd a) (snd b)
  | c => c
  end.

Definition chave_lt (a b : chave) : Prop := chave_compare a b = Lt.

(** One more key in a sorted list of distinct keys. *)
Fixpoint inserir_chave (k : chave) (ks : list chave) : list chave :=
  match ks with
  | [] => [k]
  | k' :: resto =>
      match chave_compare k k' with
      | Lt => k :: ks
      | Eq => ks
      | Gt => k' :: inserir_chave k resto
      end
  end.

(** The group keys of [groupby] with its default [sort=True]: the distinct
    keys of the frame, sorted. *)
Definition chaves_grupos (df : list registro) : list chave :=
  fold_left (fun ks r => inserir_chave (chave_de r) ks) df [].

(** The rows of one group, in the order of the frame. *)
Definition grupo (k : chave) (df : list registro) : list registro :=
  filter (fun r => chave_eqb (chave_de r) k) df.

(** [.agg(...)] on one group, with [reset_index()] turning the key into the
    first two columns. *)
Definition agregar (k : chave) (g : list registro) : Campanhas.resumo :=
  {| Campanhas.Plataforma := fst k;
     Campanhas.Campanha := snd k;
     Campanhas.Investimento := soma (map Investimento g);
     Campanhas.Leads := soma (map Leads g);
     Campanhas.Clientes := soma (map Novos_Clientes g);
     Campanhas.CPL_Medio := media (map CPL g);
     Campanhas.CTR_Medio := media (map CTR g) |}.

Definition agrupar_campanhas (df_filtrado : list registro) : list Campanhas.resumo :=
  map (fun k => agregar k (grupo k df_filtrado)) (chaves_grupos df_filtrado).

Definition chave_da_campanha (c : Campanhas.resumo) : chave :=
  (Campanhas.Plataforma c, Campanhas.Campanha c).

(** ** The insights, lines 128 to 142 *)

Definition cpl_limite_alerta : float := 50.

(** The threshold written into line 140. *)
Definition ctr_limite : float := 1.

(** What the script shows as an insight: [st.error] with the campaigns
    named, [st.success], or [st.warning] with the mean CTR. *)
Inductive insight : Type :=
| Alerta_de_Custo (lista_campanhas : string)
| CPL_sem_alarme
| Atencao_ao_CTR (ctr_medio : float).

(** Line 130: the rows of the table whose mean CPL is above the limit. *)
Definition campanhas_cpl_alto (df_campanhas : list Campanhas.resumo)
    : list Campanhas.resumo :=
  filter (fun c => cpl_limite_alerta <? Campanhas.CPL_Medio c) df_campanhas.

(** The items of a list as texts; [None] when one of them is not a text. *)
Fixpoint textos (itens : list rotulo) : option (list string) :=
  match itens with
  | [] => Some []
  | Texto s :: resto =>
      match textos resto with
      | Some ss => Some (s :: ss)
      | None => None
      end
  | Int0 :: _ => None
  end.

(** [sep.join(itens)]; [None] is Python's [TypeError] on an item that is
    not a [str]. *)
Definition join (sep : string) (itens : list rotulo) : option string :=
  match textos itens with
  | Some ss => Some (String.concat sep ss)
  | None => None
  end.

(** Lines 130 to 137; [None] when line 133 raises. *)
Definition insight_cpl (df_campanhas : list Campanhas.resumo) : option insight :=
  match campanhas_cpl_alto df_campanhas with
  | [] => Some CPL_sem_alarme
  | altos =>
      match join ", " (map Campanhas.Campanha altos) with
      | Some lista_campanhas => Some (Alerta_de_Custo lista_campanhas)
      | None => None
      end
  end.

(** Lines 140 to 142. *)
Definition insight_ctr (k : kpis) : list insight :=
  if (0 <? total_investimento k) && (ctr_medio k <? ctr_limite)
  then [Atencao_ao_CTR (ctr_medio k)]
  else [].

(** ** The script from line 72 on *)

(** What one run shows below the title.  The charts of lines 144 to 174 draw
    [df_campanhas] again and are left out. *)
Inductive execucao : Type :=
| Sem_dados
| Painel (k : kpis) (df_campanhas : list Campanhas.resumo) (insights : list insight)
| TypeError_join (k : kpis) (df_campanhas : list Campanhas.resumo).

Definition painel (plataforma_selecionada campanha_selecionada : list rotulo)
    (df_metricas : list registro) : execucao :=
  match filtrar plataforma_selecionada campanha_selecionada df_metricas with
  | [] => Sem_dados
  | df_filtrado =>
      let k := calcular_kpis df_filtrado in
      let df_campanhas := agrupar_campanhas df_filtrado in
      match insight_cpl df_campanhas with
      | Some i => Painel k df_campanhas (i :: insight_ctr k)
      | None => TypeError_join k df_campanhas
      end
  end.

(** [df_filtrado] with the sidebar as it starts: everything selected. *)
Definition df_filtrado_padrao (df_metricas : list registro) : list registro :=
  let plataforma_selecionada := plataformas_padrao df_metricas in
  filtrar plataforma_selecionada
          (campanhas_padrao df_metricas plataforma_selecionada) df_metricas.

(** The script on a CSV file, with the sidebar as it starts. *)
Definition app (csv : list linha_csv) : execucao :=
  let df_metricas := carregar_e_processar_dados csv in
  let plataforma_selecionada := plataformas_padrao df_metricas in
  painel plataforma_selecionada
         (campanhas_padrao df_metricas plataforma_selecionada) df_metricas.

(** ** Reading a run *)

Definition kpis_de (e : execucao) : option kpis :=
  match e with
  | Sem_dados => None
  | Painel k _ _ => Some k
  | TypeError_join k _ => Some k
  end.

Definition tabela_de (e : execucao) : option (list Campanhas.resumo) :=
  match e with
  | Sem_dados => None
  | Painel _ df_campanhas _ => Some df_campanhas
  | TypeError_join _ df_campanhas => Some df_campanhas
  end.

Definition insights_de (e : execucao) : list insight :=
  match e with
  | Painel _ _ insights => insights
  | _ => []
  end.

(** [false] when line 133 raised. *)
Definition terminou (e : execucao) : bool :=
  match e with
  | TypeError_join _ _ => false
  | _ => true
  end.

(** The insights of the CPL rule: the alert and the all-clear. *)
Definition da_regra_cpl (i : insight) : bool :=
  match i with
  | Alerta_de_Custo _ => true
  | CPL_sem_alarme => true
  | Atencao_ao_CTR _ => false
  end.

(** The insight of the CTR rule. *)
Definition da_regra_ctr (i : insight) : bool :=
  match i with
  | Atencao_ao_CTR _ => true
  | _ => false
  end.

(** The order the specification gives the campaign table: the group keys in
    the order in which the frame first shows each of them. *)
Definition chaves_por_primeira_ocorrencia (df : list registro) : list chave :=
  primeiras_ocorrencias chave_eqb (map chave_de df).

(** ** Example files *)

(** Two rows of one campaign: 100 spent for 10 leads, 90 spent for 1 lead. *)
Definition csv_assimetrico : list linha_csv :=
  [linha "Meta" "Captacao" 100 1000 50 10 2 20;
   linha "Meta" "Captacao" 90 1000 5 1 0 0].

(** One row of the campaign "Captacao" on "Meta": 100 spent, 1000
    impressions, and the clicks and leads given. *)
Definition csv_uma_linha (cliques leads : float) : list linha_csv :=
  [linha "Meta" "Captacao" 100 1000 cliques leads 0 0].

(** Two campaigns, the one on "Meta" first. *)
Definition csv_duas_plataformas : list linha_csv :=
  [linha "Meta" "Captacao" 100 1000 50 10 2 20;
   linha "Google" "Marca" 90 1000 5 1 0 0].


(** ** A value that is not a finite number *)

Inductive nao_finito (z : float) : Prop :=
| nf_nan : z = nan -> nao_finito z
| nf_inf : z = infinity -> nao_finito z
| nf_neg_inf : z = neg_infinity -> nao_finito z.

(** ** Signs of binary64 values *)

(** Zero of either sign, plus infinity or a positive finite number. *)
Definition sf_positivo (f : spec_float) : Prop :=
  match f with
  | S754_zero _ => True
  | S754_infinity s => s = false
  | S754_finite s _ _ => s = false
  | S754_nan => False
  end.

Definition sf_positivo_ou_nan (f : spec_float) : Prop :=
  match f with
  | S754_nan => True
  | _ => sf_positivo f
  end.

(** Anything but a negative finite number. *)
Definition sf_sem_negativo_finito (f : spec_float) : Prop :=
  match f with
  | S754_finite s _ _ => s = false
  | _ => True
  end.

(** A row of "Meta" that names no campaign: 100 spent, 1000 impressions,
    and the clicks and leads given. *)
Definition linha_sem_campanha (cliques leads : float) : linha_csv :=
  {| csv_Plataforma := Some "Meta"%string;
     csv_Campanha := None;
     csv_Investimento := Numero 100;
     csv_Impressoes := Numero 1000;
     csv_Cliques := Numero cliques;
     csv_Leads := Numero leads;
     csv_Novos_Clientes := Numero 0;
     csv_Outros_Custos := Numero 0 |}.

(** A file in which no row has a lead or a new client. *)
Definition csv_sem_resultado : list linha_csv :=
  [linha "Meta" "Captacao" 500 1000 50 0 0 20;
   linha "Google" "Marca" 900 2000 5 0 0 0].

(** ** Binary64 facts *)

Lemma SFcompare_antisym (f1 f2 : spec_float) :
  SFcompare f2 f1 = option_map CompOpp (SFcompare f1 f2).
Proof.
  destruct f1 as [s1|s1| |s1 m1 e1], f2 as [s2|s2| |s2 m2 e2]; simpl;
    try destruct s1; try destruct s2; simpl; try reflexivity;
    rewrite (Z.compare_antisym e1 e2);
    destruct (e1 ?= e2)%Z; simpl; try reflexivity;
    rewrite (Pos.compare_cont_antisym m1 m2 Eq); simpl;
    try rewrite CompOpp_involutive; reflexivity.
Qed.

Lemma ltb_leb_false (x y : float) : (x <? y) = true -> (y <=? x) = false.
Proof.
  rewrite FloatAxioms.ltb_spec, FloatAxioms.leb_spec. unfold SFltb, SFleb.
  rewrite (SFcompare_antisym (Prim2SF x) (Prim2SF y)).
  destruct (SFcompare (Prim2SF x) (Prim2SF y)) as [[ | | ]|]; simpl; congruence.
Qed.

Lemma Prim2SF_zero (y : float) :
  is_zero y = true -> exists s, Prim2SF y = S754_zero s.
Proof.
  unfold is_zero. rewrite FloatAxioms.eqb_spec.
  change (Prim2SF PrimFloat.zero) with (S754_zero false).
  destruct (Prim2SF y) as [s|s| |s m e]; try destruct s; simpl;
    try discriminate; intros _; eexists; reflexivity.
Qed.

Lemma nan_of_SF (z : float) : Prim2SF z = S754_nan -> z = nan.
Proof. intros H. apply Prim2SF_inj. rewrite H. reflexivity. Qed.

Lemma infinity_of_SF (z : float) (s : bool) :
  Prim2SF z = S754_infinity s -> z = if s then neg_infinity else infinity.
Proof. intros H. apply Prim2SF_inj. rewrite H. destruct s; reflexivity. Qed.

Lemma div_por_zero (x y : float) : is_zero y = true -> nao_finito (x / y).
Proof.
  intros Hy. destruct (Prim2SF_zero y Hy) as [s Hs].
  pose proof (div_spec x y) as H. rewrite Hs in H. unfold SF64div in H.
  destruct (Prim2SF x) as [sx|sx| |sx mx ex]; simpl in H;
    try (apply nf_nan, nan_of_SF, H);
    apply infinity_of_SF in H;
    (destruct (xorb sx s); [apply nf_neg_inf|apply nf_inf]; exact H).
Qed.

Lemma SFcompare_refl (f : spec_float) :
  f <> S754_nan -> SFcompare f f = Some Eq.
Proof.
  destruct f as [s|s| |s m e]; try destruct s; simpl; try congruence;
    intros _; rewrite Z.compare_refl, Pos.compare_cont_refl; reflexivity.
Qed.

Lemma is_nan_nan (x : float) : is_nan x = true -> x = nan.
Proof.
  unfold is_nan. rewrite FloatAxioms.eqb_spec. unfold SFeqb. intros H.
  apply nan_of_SF. destruct (Prim2SF x) as [s|s| |s m e] eqn:E;
    try reflexivity; rewrite SFcompare_refl in H; discriminate.
Qed.

Lemma eqb_infinity (x : float) (s : bool) :
  (x =? (if s then neg_infinity else infinity)) = true ->
  x = if s then neg_infinity else infinity.
Proof.
  rewrite FloatAxioms.eqb_spec. intros H. apply infinity_of_SF.
  destruct s;
    [change (Prim2SF neg_infinity) with (S754_infinity true) in H
    |change (Prim2SF infinity) with (S754_infinity false) in H];
    destruct (Prim2SF x) as [s'|s'| |s' m e]; try destruct s';
    simpl in H; try discriminate; reflexivity.
Qed.

Lemma tratar_nao_finito (z : float) : nao_finito z -> tratar z = 0.
Proof. intros [H|H|H]; rewrite H; reflexivity. Qed.

Lemma is_infinity_eqb (x : float) :
  is_infinity x = (x =? infinity) || (x =? neg_infinity).
Proof.
  unfold is_infinity. rewrite !FloatAxioms.eqb_spec, abs_spec.
  change (Prim2SF infinity) with (S754_infinity false).
  change (Prim2SF neg_infinity) with (S754_infinity true).
  destruct (Prim2SF x) as [s|s| |s m e]; try destruct s; reflexivity.
Qed.

Lemma nao_finito_de_is_finite (x : float) :
  is_finite x = false -> nao_finito x.
Proof.
  unfold is_finite. rewrite negb_false_iff, orb_true_iff, is_infinity_eqb.
  rewrite orb_true_iff. intros [H|[H|H]].
  - now apply nf_nan, is_nan_nan.
  - now apply nf_inf, (eqb_infinity x false).
  - now apply nf_neg_inf, (eqb_infinity x true).
Qed.

Lemma tratar_finito (x : float) : is_finite (tratar x) = true.
Proof.
  unfold tratar, replace_inf. rewrite <- is_infinity_eqb.
  destruct (is_infinity x) eqn:Hi; simpl; [reflexivity|].
  destruct (is_nan x) eqn:Hn; [reflexivity|].
  unfold is_finite. rewrite Hi, Hn. reflexivity.
Qed.

Lemma tratar_de_finito (x : float) : is_finite x = true -> tratar x = x.
Proof.
  unfold is_finite, tratar, replace_inf. rewrite <- is_infinity_eqb.
  destruct (is_nan x) eqn:Hn, (is_infinity x); simpl; try discriminate.
  now rewrite Hn.
Qed.

Lemma tratar_casos (x : float) : tratar x = 0 \/ tratar x = x.
Proof.
  unfold tratar, replace_inf, fillna.
  destruct ((x =? infinity) || (x =? neg_infinity)); [now left|].
  destruct (is_nan x); [now left|now right].
Qed.

(** ** The order of the group keys *)

Section OrdemDasChaves.

Lemma ascii_compare_refl (a : ascii) : Ascii.compare a a = Eq.
Proof. apply N.compare_refl. Qed.

Lemma ascii_compare_trans (a b c : ascii) :
  Ascii.compare a b = Lt -> Ascii.compare b c = Lt -> Ascii.compare a c = Lt.
Proof. unfold Ascii.compare. rewrite !N.compare_lt_iff. lia. Qed.

Lemma string_compare_refl (s : string) : String.compare s s = Eq.
Proof.
  induction s as [|a s IH]; simpl; [reflexivity|].
  now rewrite ascii_compare_refl.
Qed.

Lemma string_compare_trans (s t u : string) :
  String.compare s t = Lt -> String.compare t u = Lt -> String.compare s u = Lt.
Proof.
  revert t u. induction s as [|a s IH]; intros [|b t] [|c u]; simpl;
    try discriminate; try reflexivity.
  destruct (Ascii.compare a b) eqn:Hab; try discriminate;
    destruct (Ascii.compare b c) eqn:Hbc; try discriminate; intros Hst Htu.
  - apply Ascii.compare_eq_iff in Hab, Hbc. subst.
    rewrite ascii_compare_refl. eauto.
  - apply Ascii.compare_eq_iff in Hab. subst. now rewrite Hbc.
  - apply Ascii.compare_eq_iff in Hbc. subst. now rewrite Hab.
  - now rewrite (ascii_compare_trans a b c).
Qed.

Lemma rotulo_compare_refl (a : rotulo) : rotulo_compare a a = Eq.
Proof. destruct a; simpl; [apply string_compare_refl|reflexivity]. Qed.

Lemma rotulo_compare_eq (a b : rotulo) : rotulo_compare a b = Eq -> a = b.
Proof.
  destruct a, b; simpl; try discriminate; try reflexivity.
  intros H. now rewrite (String.compare_eq_iff _ _ H).
Qed.

Lemma rotulo_compare_antisym (a b : rotulo) :
  rotulo_compare a b = CompOpp (rotulo_compare b a).
Proof. destruct a, b; simpl; try reflexivity. apply String.compare_antisym. Qed.

Lemma rotulo_compare_trans (a b c : rotulo) :
  rotulo_compare a b = Lt -> rotulo_compare b c = Lt -> rotulo_compare a c = Lt.
Proof.
  destruct a, b, c; simpl; try discriminate; try reflexivity.
  apply string_compare_trans.
Qed.

Lemma chave_compare_eq (a b : chave) : chave_compare a b = Eq -> a = b.
Proof.
  destruct a as [p c], b as [p' c']. unfold chave_compare. simpl.
  destruct (rotulo_compare p p') eqn:Hp; try discriminate.
  intros Hc. apply rotulo_compare_eq in Hp, Hc. now subst.
Qed.

Lemma chave_compare_antisym (a b : chave) :
  chave_compare a b = CompOpp (chave_compare b a).
Proof.
  destruct a as [p c], b as [p' c']. unfold chave_compare. simpl.
  rewrite (rotulo_compare_antisym p p'), (rotulo_compare_antisym c c').
  now destruct (rotulo_compare p' p).
Qed.

Lemma chave_gt_lt (a b : chave) : chave_compare a b = Gt -> chave_lt b a.
Proof.
  unfold chave_lt. rewrite (chave_compare_antisym b a). now intros ->.
Qed.

Lemma chave_lt_trans (a b c : chave) : chave_lt a b -> chave_lt b c -> chave_lt a c.
Proof.
  destruct a as [p1 c1], b as [p2 c2], c as [p3 c3].
  unfold chave_lt, chave_compare. simpl.
  destruct (rotulo_compare p1 p2) eqn:H12; try discriminate;
    destruct (rotulo_compare p2 p3) eqn:H23; try discriminate; intros Ha Hb.
  - apply rotulo_compare_eq in H12, H23. subst.
    rewrite rotulo_compare_refl. eapply rotulo_compare_trans; eassumption.
  - apply rotulo_compare_eq in H12. subst. now rewrite H23.
  - apply rotulo_compare_eq in H23. subst. now rewrite H12.
  - now rewrite (rotulo_compare_trans p1 p2 p3).
Qed.

Lemma chave_lt_irrefl (a : chave) : ~ chave_lt a a.
Proof.
  destruct a as [p c]. unfold chave_lt, chave_compare. simpl.
  rewrite !rotulo_compare_refl. discriminate.
Qed.

End OrdemDasChaves.

(** ** Equality tests *)

Lemma rotulo_eqb_eq (a b : rotulo) : rotulo_eqb a b = true <-> a = b.
Proof.
  destruct a as [s|], b as [t|]; simpl; split; try discriminate; try reflexivity.
  - intros H. apply String.eqb_eq in H. now subst.
  - intros H. injection H as ->. apply String.eqb_refl.
Qed.

Lemma chave_eqb_eq (a b : chave) : chave_eqb a b = true <-> a = b.
Proof.
  destruct a as [p c], b as [p' c']. unfold chave_eqb. simpl.
  rewrite andb_true_iff, !rotulo_eqb_eq. split.
  - now intros [-> ->].
  - intros H. injection H as -> ->. now split.
Qed.

Lemma isin_In (x : rotulo) (values : list rotulo) :
  isin x values = true <-> In x values.
Proof.
  unfold isin. rewrite existsb_exists. split.
  - intros (y & Hy & He). apply rotulo_eqb_eq in He. now subst.
  - intros H. exists x. split; [exact H|now apply rotulo_eqb_eq].
Qed.

(** ** The sorted keys of [groupby] *)

Section ChavesOrdenadas.

Lemma In_inserir_chave (k k' : chave) (ks : list chave) :
  In k' (inserir_chave k ks) <-> k' = k \/ In k' ks.
Proof.
  induction ks as [|h ks IH]; simpl.
  - intuition.
  - destruct (chave_compare k h) eqn:Hc; simpl.
    + apply chave_compare_eq in Hc. subst. intuition.
    + intuition.
    + rewrite IH. intuition.
Qed.

Lemma inserir_chave_ordenada (k : chave) (ks : list chave) :
  StronglySorted chave_lt ks -> StronglySorted chave_lt (inserir_chave k ks).
Proof.
  induction 1 as [|h ks Hs IH Hh]; simpl.
  - repeat constructor.
  - destruct (chave_compare k h) eqn:Hc.
    + now constructor.
    + constructor; [now constructor|].
      constructor; [exact Hc|].
      eapply Forall_impl; [|exact Hh].
      intros a Ha. eapply chave_lt_trans; eassumption.
    + constructor; [exact IH|].
      apply Forall_forall. intros a Ha.
      apply In_inserir_chave in Ha. destruct Ha as [->|Ha].
      * now apply chave_gt_lt.
      * rewrite Forall_forall in Hh. now apply Hh.
Qed.

Lemma chaves_fold_ordenadas (df : list registro) (ks : list chave) :
  StronglySorted chave_lt ks ->
  StronglySorted chave_lt
    (fold_left (fun ks r => inserir_chave (chave_de r) ks) df ks).
Proof.
  revert ks. induction df as [|r df IH]; intros ks Hs; simpl; [exact Hs|].
  apply IH. now apply inserir_chave_ordenada.
Qed.

Lemma In_chaves_fold (df : list registro) (ks : list chave) (k : chave) :
  In k (fold_left (fun ks r => inserir_chave (chave_de r) ks) df ks) <->
  In k ks \/ exists r, In r df /\ chave_de r = k.
Proof.
  revert ks. induction df as [|r df IH]; intros ks; simpl.
  - split; [now left|]. intros [H|(r & [] & _)]. exact H.
  - rewrite IH, In_inserir_chave. split.
    + intros [[->|H]|(r' & Hr' & He)].
      * right. exists r. now split; [left|].
      * now left.
      * right. exists r'. now split; [right|].
    + intros [H|(r' & [->|Hr'] & He)].
      * left. now right.
      * left. left. now symmetry.
      * right. exists r'. now split.
Qed.

Lemma chaves_grupos_ordenadas (df : list registro) :
  StronglySorted chave_lt (chaves_grupos df).
Proof. apply chaves_fold_ordenadas. constructor. Qed.

Lemma In_chaves_grupos (df : list registro) (k : chave) :
  In k (chaves_grupos df) <-> exists r, In r df /\ chave_de r = k.
Proof.
  unfold chaves_grupos. rewrite In_chaves_fold. simpl. intuition.
Qed.

Lemma chaves_grupos_distintas (df : list registro) : NoDup (chaves_grupos df).
Proof.
  induction (chaves_grupos_ordenadas df) as [|k ks _ IH Hk]; constructor.
  - intros Hin. rewrite Forall_forall in Hk.
    exact (chave_lt_irrefl k (Hk k Hin)).
  - exact IH.
Qed.

Lemma In_grupo (k : chave) (df : list registro) (r : registro) :
  In r (grupo k df) <-> In r df /\ chave_de r = k.
Proof. unfold grupo. now rewrite filter_In, chave_eqb_eq. Qed.

Lemma chaves_de_agrupar (df : list registro) :
  map chave_da_campanha (agrupar_campanhas df) = chaves_grupos df.
Proof.
  unfold agrupar_campanhas. rewrite map_map.
  rewrite <- (map_id (chaves_grupos df)) at 2.
  apply map_ext. now intros [p c].
Qed.

End ChavesOrdenadas.

(** ** The calculator on one row *)

Section Calculadora.

Variable l : linha_csv.

Lemma CTR_processar :
  CTR (processar_linha l) = tratar (limitar_ctr (ctr_bruto l)).
Proof. reflexivity. Qed.

Lemma ctr_impressoes_zero (x y : float) :
  is_zero y = true -> tratar (limitar_ctr ((x / y) * 100)) = 0.
Proof.
  intros Hy. destruct (div_por_zero x y Hy) as [E|E|E]; rewrite E; reflexivity.
Qed.

Lemma cpm_impressoes_zero (x y : float) :
  is_zero y = true -> tratar ((x / y) * 1000) = 0.
Proof.
  intros Hy. destruct (div_por_zero x y Hy) as [E|E|E]; rewrite E; reflexivity.
Qed.

Lemma razao_denominador_zero (x y : float) :
  is_zero y = true -> tratar (x / y) = 0.
Proof. intros Hy. apply tratar_nao_finito, div_por_zero, Hy. Qed.

Lemma limitar_ctr_acima (x : float) : (100 <? x) = true -> limitar_ctr x = 0.
Proof.
  intros H. unfold limitar_ctr. now rewrite (ltb_leb_false 100 x H).
Qed.

Lemma limitar_ctr_negativo (x : float) : (x <? 0) = true -> limitar_ctr x = x.
Proof.
  unfold limitar_ctr. rewrite FloatAxioms.ltb_spec, FloatAxioms.leb_spec.
  remember (Prim2SF 100) as c eqn:Hc. vm_compute in Hc. subst c.
  change (Prim2SF 0) with (S754_zero false).
  destruct (Prim2SF x) as [s|s| |s m e]; try destruct s; simpl;
    try discriminate; reflexivity.
Qed.

Lemma limitar_ctr_nao_finito (x : float) :
  nao_finito x -> tratar (limitar_ctr x) = 0.
Proof. intros [E|E|E]; rewrite E; reflexivity. Qed.

Lemma tratar_limitado (x : float) : (tratar (limitar_ctr x) <=? 100) = true.
Proof.
  destruct (tratar_casos (limitar_ctr x)) as [E|E]; rewrite E; [reflexivity|].
  unfold limitar_ctr. destruct (x <=? 100) eqn:H; [exact H|reflexivity].
Qed.

End Calculadora.

(** ** The sidebar with everything selected *)

Section SelecaoPadrao.

Lemma In_primeiras_fold (col vistos : list rotulo) (x : rotulo) :
  In x (fold_left
          (fun vistos x =>
             if existsb (rotulo_eqb x) vistos then vistos else vistos ++ [x])
          col vistos) <->
  In x vistos \/ In x col.
Proof.
  revert vistos. induction col as [|y col IH]; intros vistos; simpl.
  - intuition.
  - rewrite IH. destruct (existsb (rotulo_eqb y) vistos) eqn:He.
    + apply (isin_In y vistos) in He. intuition (subst; auto).
    + rewrite in_app_iff. simpl. intuition.
Qed.

Lemma In_unique (col : list rotulo) (x : rotulo) : In x (unique col) <-> In x col.
Proof.
  unfold unique, primeiras_ocorrencias. rewrite In_primeiras_fold.
  simpl. intuition.
Qed.

Lemma df_filtrado_padrao_todo (df : list registro) (r : registro) :
  In r df -> In r (df_filtrado_padrao df).
Proof.
  intros Hr. unfold df_filtrado_padrao, filtrar. apply filter_In.
  split; [exact Hr|]. apply andb_true_iff.
  assert (Hp : isin (Plataforma r) (plataformas_padrao df) = true).
  { apply isin_In, In_unique, in_map, Hr. }
  split; [exact Hp|].
  apply isin_In, In_unique, in_map, filter_In. now split.
Qed.

End SelecaoPadrao.

(** ** One run of the script *)

Section Execucao.

Variables plataforma_selecionada campanha_selecionada : list rotulo.
Variable df_metricas : list registro.

Let df_filtrado :=
  filtrar plataforma_selecionada campanha_selecionada df_metricas.

Lemma painel_nao_vazio :
  df_filtrado <> [] ->
  painel plataforma_selecionada campanha_selecionada df_metricas =
  match insight_cpl (agrupar_campanhas df_filtrado) with
  | Some i =>
      Painel (calcular_kpis df_filtrado) (agrupar_campanhas df_filtrado)
             (i :: insight_ctr (calcular_kpis df_filtrado))
  | None =>
      TypeError_join (calcular_kpis df_filtrado) (agrupar_campanhas df_filtrado)
  end.
Proof.
  unfold painel. fold df_filtrado.
  destruct df_filtrado; [congruence|reflexivity].
Qed.

Lemma kpis_do_painel :
  df_filtrado <> [] ->
  kpis_de (painel plataforma_selecionada campanha_selecionada df_metricas) =
  Some (calcular_kpis df_filtrado).
Proof.
  intros H. rewrite (painel_nao_vazio H).
  now destruct (insight_cpl (agrupar_campanhas df_filtrado)).
Qed.


End Execucao.

(** ** The campaigns the alert names *)

Section Nomes.

Lemma textos_de_textos (itens : list rotulo) :
  Forall (fun x => exists s, x = Texto s) itens ->
  exists nomes, textos itens = Some nomes /\ map Texto nomes = itens.
Proof.
  induction 1 as [|x itens [s ->] _ (nomes & Hn & Hm)]; simpl.
  - now exists [].
  - rewrite Hn. exists (s :: nomes). simpl. now rewrite Hm.
Qed.

Lemma campanha_da_tabela (df : list registro) (c : Campanhas.resumo) :
  In c (agrupar_campanhas df) ->
  exists r, In r df /\ chave_de r = chave_da_campanha c.
Proof.
  intros Hc. apply In_chaves_grupos. rewrite <- chaves_de_agrupar.
  now apply in_map.
Qed.

Lemma campanhas_altas_com_nome (df : list registro) :
  Forall (fun r => exists s, Campanha r = Texto s) df ->
  Forall (fun x => exists s, x = Texto s)
    (map Campanhas.Campanha (campanhas_cpl_alto (agrupar_campanhas df))).
Proof.
  intros Hdf. apply Forall_forall. intros x Hx.
  apply in_map_iff in Hx. destruct Hx as (c & <- & Hc).
  apply filter_In in Hc. destruct Hc as [Hc _].
  destruct (campanha_da_tabela df c Hc) as (r & Hr & Hk).
  rewrite Forall_forall in Hdf. destruct (Hdf r Hr) as [s Hs].
  exists s. rewrite <- Hs.
  change (snd (chave_da_campanha c) = snd (chave_de r)). now rewrite Hk.
Qed.

Lemma insight_cpl_com_nomes (df : list registro) :
  Forall (fun r => exists s, Campanha r = Texto s) df ->
  let altos := campanhas_cpl_alto (agrupar_campanhas df) in
  exists nomes,
    map Texto nomes = map Campanhas.Campanha altos /\
    insight_cpl (agrupar_campanhas df) =
    Some (match altos with
          | [] => CPL_sem_alarme
          | _ => Alerta_de_Custo (String.concat ", " nomes)
          end).
Proof.
  intros Hdf altos.
  destruct (textos_de_textos _ (campanhas_altas_com_nome df Hdf))
    as (nomes & Hn & Hm).
  exists nomes. split; [exact Hm|].
  unfold insight_cpl, join. fold altos. fold altos in Hn.
  destruct altos; [reflexivity|]. now rewrite Hn.
Qed.

End Nomes.


(** ** The zero denominators *)

Lemma metricas_da_linha (l : linha_csv) :
  let r := processar_linha l in
  (is_zero (numerico (csv_Cliques l)) = true -> CPC r = 0) /\
  (is_zero (numerico (csv_Impressoes l)) = true -> CTR r = 0 /\ CPM r = 0) /\
  (is_zero (numerico (csv_Leads l)) = true -> CPL r = 0) /\
  (is_zero (numerico (csv_Novos_Clientes l)) = true -> CAC_Diario r = 0) /\
  is_finite (CTR r) = true /\ is_finite (CPC r) = true /\
  is_finite (CPM r) = true /\ is_finite (CPL r) = true /\
  is_finite (Custo_Total_Diario r) = true /\ is_finite (CAC_Diario r) = true.
Proof.
  cbv zeta. unfold processar_linha. cbn [CTR CPC CPM CPL Custo_Total_Diario CAC_Diario].
  split; [intros H; now apply razao_denominador_zero|].
  split; [intros H; split;
          [now apply ctr_impressoes_zero|now apply cpm_impressoes_zero]|].
  split; [intros H; now apply razao_denominador_zero|].
  split; [intros H; now apply razao_denominador_zero|].
  repeat split; apply tratar_finito.
Qed.

(** C1: in every row whose denominator is zero (clicks for CPC, impressions
    for CTR and CPM, leads for CPL, new clients for the daily CAC) the
    derived column is exactly 0 in the returned row, and no derived column of
    any returned row is infinite or not a number. *)
Theorem denominador_zero_metrica_zero (csv : list linha_csv) :
  Forall2
    (fun l r =>
       (is_zero (numerico (csv_Cliques l)) = true -> CPC r = 0) /\
       (is_zero (numerico (csv_Impressoes l)) = true -> CTR r = 0 /\ CPM r = 0) /\
       (is_zero (numerico (csv_Leads l)) = true -> CPL r = 0) /\
       (is_zero (numerico (csv_Novos_Clientes l)) = true -> CAC_Diario r = 0) /\
       is_finite (CTR r) = true /\ is_finite (CPC r) = true /\
       is_finite (CPM r) = true /\ is_finite (CPL r) = true /\
       is_finite (Custo_Total_Diario r) = true /\ is_finite (CAC_Diario r) = true)
    csv (carregar_e_processar_dados csv).
Proof.
  induction csv as [|l csv IH]; simpl; constructor.
  - exact (metricas_da_linha l).
  - exact IH.
Qed.

(** The row of the specification with every denominator zero. *)
Lemma denominador_zero_metrica_zero_witness :
  let r := processar_linha (linha "Meta" "Captacao" 50 0 0 0 0 0) in
  CPC r = 0 /\ CTR r = 0 /\ CPM r = 0 /\ CPL r = 0 /\ CAC_Diario r = 0.
Proof.
  pose proof (denominador_zero_metrica_zero
                [linha "Meta" "Captacao" 50 0 0 0 0 0]) as H.
  cbn [carregar_e_processar_dados map] in H.
  apply Forall2_cons_iff in H.
  destruct H as [(H1 & H2 & H3 & H4 & _) _].
  cbv zeta. split; [|split; [|split; [|split]]].
  - apply H1. reflexivity.
  - apply H2. reflexivity.
  - apply H2. reflexivity.
  - apply H3. reflexivity.
  - apply H4. reflexivity.
Defined.

(** ** The CTR and its cap *)

(** C2, as the specification has it, fails on a row with one impression and
    [-2^1023] clicks: the ratio overflows to minus infinity, which is not
    above 100, the cap lets it through, and the last line of the calculator
    turns it into 0. *)
Lemma ctr_menos_infinito_contraexemplo :
  let l := linha "Meta" "Captacao" 0 1 (-0x1p1023) 0 0 0 in
  (0 <? numerico (csv_Impressoes l)) = true /\
  ctr_bruto l = neg_infinity /\
  (100 <? ctr_bruto l) = false /\
  CTR (processar_linha l) = 0 /\
  CTR (processar_linha l) <> ctr_bruto l.
Proof.
  vm_compute. repeat split.
  intros H. apply (f_equal is_infinity) in H. vm_compute in H. discriminate.
Qed.

(** C2, amended: the CTR of the returned row is clicks/impressions*100 when
    that value is a finite number not above 100; it is 0 when impressions
    are zero, 0 (not 100) whenever the value is above 100, and 0 when the
    value is infinite or not a number; a value of exactly 100 is kept. *)
Theorem ctr_da_linha (l : linha_csv) :
  let x := ctr_bruto l in
  let r := processar_linha l in
  (is_finite x = true -> (x <=? 100) = true -> CTR r = x) /\
  (is_zero (numerico (csv_Impressoes l)) = true -> CTR r = 0) /\
  ((100 <? x) = true -> CTR r = 0) /\
  (is_finite x = false -> CTR r = 0) /\
  (x = 100 -> CTR r = 100).
Proof.
  cbv zeta. rewrite CTR_processar.
  split; [|split; [|split; [|split]]].
  - intros Hf Hle. unfold limitar_ctr. rewrite Hle. now apply tratar_de_finito.
  - intros Hz. now apply ctr_impressoes_zero.
  - intros Hgt. now rewrite (limitar_ctr_acima _ Hgt).
  - intros Hnf. now apply limitar_ctr_nao_finito, nao_finito_de_is_finite.
  - intros ->. reflexivity.
Qed.

(** Five rows: a ratio of 5, no impressions, a ratio of 150, a ratio of
    minus infinity and a ratio of exactly 100. *)
Lemma ctr_da_linha_witness :
  CTR (processar_linha (linha "Meta" "Captacao" 100 1000 50 10 2 20)) = 5 /\
  CTR (processar_linha (linha "Meta" "Captacao" 100 0 50 10 2 20)) = 0 /\
  CTR (processar_linha (linha "Meta" "Captacao" 100 1000 1500 10 2 20)) = 0 /\
  CTR (processar_linha (linha "Meta" "Captacao" 0 1 (-0x1p1023) 0 0 0)) = 0 /\
  CTR (processar_linha (linha "Meta" "Captacao" 100 1000 1000 10 2 20)) = 100.
Proof.
  split; [|split; [|split; [|split]]].
  - destruct (ctr_da_linha (linha "Meta" "Captacao" 100 1000 50 10 2 20))
      as (H & _).
    exact (H eq_refl eq_refl).
  - destruct (ctr_da_linha (linha "Meta" "Captacao" 100 0 50 10 2 20))
      as (_ & H & _).
    exact (H eq_refl).
  - destruct (ctr_da_linha (linha "Meta" "Captacao" 100 1000 1500 10 2 20))
      as (_ & _ & H & _).
    exact (H eq_refl).
  - destruct (ctr_da_linha (linha "Meta" "Captacao" 0 1 (-0x1p1023) 0 0 0))
      as (_ & _ & _ & H & _).
    exact (H eq_refl).
  - destruct (ctr_da_linha (linha "Meta" "Captacao" 100 1000 1000 10 2 20))
      as (_ & _ & _ & _ & H).
    exact (H eq_refl).
Defined.

(** C10: the CTR of every returned row is at most 100; the cap works on one
    side only, so a ratio of exactly 100 is kept and the cap returns every
    negative ratio as it is, which leaves a finite negative ratio in the
    returned row. *)
Theorem ctr_no_maximo_cem :
  (forall csv r, In r (carregar_e_processar_dados csv) -> (CTR r <=? 100) = true) /\
  (forall l, ctr_bruto l = 100 -> CTR (processar_linha l) = 100) /\
  (forall x, (x <? 0) = true -> limitar_ctr x = x) /\
  (forall l, (ctr_bruto l <? 0) = true -> is_finite (ctr_bruto l) = true ->
             CTR (processar_linha l) = ctr_bruto l).
Proof.
  split; [|split; [|split]].
  - intros csv r Hr. apply in_map_iff in Hr. destruct Hr as (l & <- & _).
    rewrite CTR_processar. apply tratar_limitado.
  - intros l H. rewrite CTR_processar, H. reflexivity.
  - exact limitar_ctr_negativo.
  - intros l Hneg Hf. rewrite CTR_processar, (limitar_ctr_negativo _ Hneg).
    now apply tratar_de_finito.
Qed.

(** A ratio of exactly 100, and 50 negative clicks on 1000 impressions. *)
Lemma ctr_no_maximo_cem_witness :
  (CTR (processar_linha (linha "Meta" "Captacao" 100 1000 1000 10 2 20))
   <=? 100) = true /\
  CTR (processar_linha (linha "Meta" "Captacao" 100 1000 1000 10 2 20)) = 100 /\
  limitar_ctr (-5) = (-5) /\
  CTR (processar_linha (linha "Meta" "Captacao" 100 1000 (-50) 10 2 20)) = (-5).
Proof.
  destruct ctr_no_maximo_cem as (H1 & H2 & H3 & H4).
  split; [|split; [|split]].
  - apply (H1 [linha "Meta" "Captacao" 100 1000 1000 10 2 20]). now left.
  - apply H2. reflexivity.
  - apply H3. reflexivity.
  - exact (H4 (linha "Meta" "Captacao" 100 1000 (-50) 10 2 20) eq_refl eq_refl).
Defined.

(** ** The KPI panel *)

(** C3: on a filtered frame that is not empty the CPL of the KPI panel is
    the sum of the investment over the sum of the leads when that sum is
    above 0, and 0 otherwise; on the two rows above it differs from the mean
    of the CPL column. *)
Theorem cpl_geral_razao_de_somas :
  (forall ps cs df,
     let f := filtrar ps cs df in
     f <> [] ->
     exists k,
       kpis_de (painel ps cs df) = Some k /\
       cpl_medio k =
       if 0 <? soma (map Leads f)
       then soma (map Investimento f) / soma (map Leads f)
       else 0) /\
  (let f := df_filtrado_padrao (carregar_e_processar_dados csv_assimetrico) in
   exists k,
     f <> [] /\
     kpis_de (app csv_assimetrico) = Some k /\
     (cpl_medio k =? media (map CPL f)) = false).
Proof.
  split.
  - intros ps cs df f Hf. exists (calcular_kpis f). split.
    + now apply kpis_do_painel.
    + reflexivity.
  - eexists. split; [|split].
    + vm_compute. discriminate.
    + vm_compute. reflexivity.
    + vm_compute. reflexivity.
Qed.

(** The two rows above with everything selected: 190 over 11 leads. *)
Lemma cpl_geral_razao_de_somas_witness :
  exists k,
    kpis_de (painel [Texto "Meta"] [Texto "Captacao"]
               (carregar_e_processar_dados csv_assimetrico)) = Some k /\
    cpl_medio k = 190 / 11.
Proof.
  destruct cpl_geral_razao_de_somas as [H _].
  destruct (H [Texto "Meta"] [Texto "Captacao"]
              (carregar_e_processar_dados csv_assimetrico)) as (k & Hk & Hc).
  - vm_compute. discriminate.
  - exists k. split; [exact Hk|]. rewrite Hc. vm_compute. reflexivity.
Defined.

(** ** The insights *)

Lemma insight_ctr_fora_da_regra_cpl (k : kpis) :
  filter da_regra_cpl (insight_ctr k) = [].
Proof.
  unfold insight_ctr.
  now destruct ((0 <? total_investimento k) && (ctr_medio k <? ctr_limite)).
Qed.

Lemma insight_ctr_da_regra_ctr (k : kpis) :
  filter da_regra_ctr (insight_ctr k) = insight_ctr k.
Proof.
  unfold insight_ctr.
  now destruct ((0 <? total_investimento k) && (ctr_medio k <? ctr_limite)).
Qed.

Lemma insights_do_painel (ps cs : list rotulo) (df : list registro) :
  let f := filtrar ps cs df in
  f <> [] ->
  Forall (fun r => exists s, Campanha r = Texto s) f ->
  let altos := campanhas_cpl_alto (agrupar_campanhas f) in
  exists nomes,
    map Texto nomes = map Campanhas.Campanha altos /\
    insights_de (painel ps cs df) =
    match altos with
    | [] => CPL_sem_alarme
    | _ => Alerta_de_Custo (String.concat ", " nomes)
    end :: insight_ctr (calcular_kpis f).
Proof.
  intros f Hne Htxt altos.
  destruct (insight_cpl_com_nomes f Htxt) as (nomes & Hm & Hi).
  exists nomes. split; [exact Hm|].
  rewrite (painel_nao_vazio ps cs df Hne). fold f. rewrite Hi. reflexivity.
Qed.

(** C4 does not hold of the script.  Lines 132 to 137 show one message on
    either branch, but on a file whose only row names no campaign and has a
    CPL of 100 the campaign is the 0 that line 46 filled in, the join of
    line 133 raises, and no insight of the CPL rule is shown; the same row
    with its campaign named gets the alert. *)
Theorem alerta_cpl_sem_campanha :
  csv_Campanha (linha_sem_campanha 50 1) = None /\
  List.length (df_filtrado_padrao
                 (carregar_e_processar_dados [linha_sem_campanha 50 1])) = 1%nat /\
  option_map (map Campanhas.CPL_Medio)
             (tabela_de (app [linha_sem_campanha 50 1])) = Some [100] /\
  terminou (app [linha_sem_campanha 50 1]) = false /\
  filter da_regra_cpl (insights_de (app [linha_sem_campanha 50 1])) = [] /\
  insights_de (app (csv_uma_linha 50 1)) = [Alerta_de_Custo "Captacao"].
Proof. vm_compute. repeat split. Qed.

(** On a filtered frame that is not empty and names every campaign the CPL
    rule shows exactly one insight: the alert, naming the campaign of every
    row of the table whose mean CPL is above the limit of 50, when there is
    such a row, and the all-clear otherwise.  A mean CPL equal to the limit
    is not above it: the two rows with CPL 10 and 90 give a mean of 50 and
    the all-clear. *)
Theorem regra_cpl_alto :
  (forall ps cs df,
     let f := filtrar ps cs df in
     f <> [] ->
     Forall (fun r => exists s, Campanha r = Texto s) f ->
     let altos :=
       filter (fun c => cpl_limite_alerta <? Campanhas.CPL_Medio c)
              (agrupar_campanhas f) in
     exists nomes,
       map Texto nomes = map Campanhas.Campanha altos /\
       filter da_regra_cpl (insights_de (painel ps cs df)) =
       [match altos with
        | [] => CPL_sem_alarme
        | _ => Alerta_de_Custo (String.concat ", " nomes)
        end]) /\
  (forall c, Campanhas.CPL_Medio c = cpl_limite_alerta ->
             (cpl_limite_alerta <? Campanhas.CPL_Medio c) = false) /\
  (option_map (map Campanhas.CPL_Medio) (tabela_de (app csv_assimetrico)) =
   Some [cpl_limite_alerta] /\
   insights_de (app csv_assimetrico) = [CPL_sem_alarme]).
Proof.
  split; [|split].
  - intros ps cs df f Hne Htxt altos.
    destruct (insights_do_painel ps cs df Hne Htxt) as (nomes & Hm & Hi).
    exists nomes. split; [exact Hm|].
    fold f in Hi. rewrite Hi. cbn [filter].
    rewrite insight_ctr_fora_da_regra_cpl.
    change (campanhas_cpl_alto (agrupar_campanhas f)) with altos.
    now destruct altos.
  - intros c ->. reflexivity.
  - split; vm_compute; reflexivity.
Qed.

(** Three campaigns, two of them above the limit: the alert names both, in
    the order of the table. *)
Lemma regra_cpl_alto_witness :
  filter da_regra_cpl
    (insights_de
       (painel [Texto "Meta"; Texto "Google"]
               [Texto "Captacao"; Texto "Marca"; Texto "Alcance"]
               (carregar_e_processar_dados
                  (csv_duas_plataformas ++
                   [linha "Meta" "Alcance" 90 1000 5 1 0 0])))) =
  [Alerta_de_Custo "Marca, Alcance"].
Proof.
  destruct regra_cpl_alto as [H _].
  destruct (H [Texto "Meta"; Texto "Google"]
              [Texto "Captacao"; Texto "Marca"; Texto "Alcance"]
              (carregar_e_processar_dados
                 (csv_duas_plataformas ++
                  [linha "Meta" "Alcance" 90 1000 5 1 0 0])))
    as (nomes & Hm & Hi).
  - vm_compute. discriminate.
  - vm_compute. repeat constructor; eexists; reflexivity.
  - rewrite Hi. vm_compute in Hm. vm_compute.
    destruct nomes as [|a [|b [|c nomes]]]; try discriminate.
    injection Hm as -> ->. reflexivity.
Defined.

(** C5 does not hold of the script.  Line 140 is a test of its own, but on
    a file whose only row names no campaign, with 100 spent, a CTR of 0.5 and
    a CPL of 100, line 133 raises before line 140 is reached and the warning
    is not shown; the same row with its campaign named gets the alert and
    the warning. *)
Theorem aviso_ctr_nao_alcancado :
  csv_Campanha (linha_sem_campanha 5 1) = None /\
  option_map (fun k => (0 <? total_investimento k) && (ctr_medio k <? ctr_limite))
             (kpis_de (app [linha_sem_campanha 5 1])) = Some true /\
  terminou (app [linha_sem_campanha 5 1]) = false /\
  filter da_regra_ctr (insights_de (app [linha_sem_campanha 5 1])) = [] /\
  insights_de (app (csv_uma_linha 5 1)) =
    [Alerta_de_Custo "Captacao"; Atencao_ao_CTR 0.5].
Proof. vm_compute. repeat split. Qed.

(** On a filtered frame that is not empty and names every campaign the CTR
    rule shows its warning exactly when the investment of the frame sums to
    more than 0 and the mean of the CTR column is below 1.0; a mean of
    exactly 1.0 shows none.  The insight of the CPL rule is there whether
    the warning is or not, and each of the four combinations occurs. *)
Theorem regra_ctr_baixo :
  (forall ps cs df,
     let f := filtrar ps cs df in
     f <> [] ->
     Forall (fun r => exists s, Campanha r = Texto s) f ->
     let ins := insights_de (painel ps cs df) in
     filter da_regra_ctr ins =
     (if (0 <? soma (map Investimento f)) && (media (map CTR f) <? ctr_limite)
      then [Atencao_ao_CTR (media (map CTR f))]
      else []) /\
     (media (map CTR f) = ctr_limite -> filter da_regra_ctr ins = []) /\
     List.length (filter da_regra_cpl ins) = 1%nat) /\
  (insights_de (app (csv_uma_linha 5 1)) =
     [Alerta_de_Custo "Captacao"; Atencao_ao_CTR 0.5] /\
   insights_de (app (csv_uma_linha 50 1)) = [Alerta_de_Custo "Captacao"] /\
   insights_de (app (csv_uma_linha 5 10)) =
     [CPL_sem_alarme; Atencao_ao_CTR 0.5] /\
   insights_de (app (csv_uma_linha 50 10)) = [CPL_sem_alarme]) /\
  (option_map ctr_medio (kpis_de (app (csv_uma_linha 10 10))) = Some ctr_limite /\
   insights_de (app (csv_uma_linha 10 10)) = [CPL_sem_alarme]).
Proof.
  split; [|split].
  - intros ps cs df f Hne Htxt ins.
    destruct (insights_do_painel ps cs df Hne Htxt) as (nomes & _ & Hi).
    fold f in Hi. fold ins in Hi. rewrite Hi.
    assert (Hctr : forall i, da_regra_cpl i = true ->
              filter da_regra_ctr (i :: insight_ctr (calcular_kpis f)) =
              insight_ctr (calcular_kpis f)).
    { intros i Hcpl. cbn [filter].
      rewrite insight_ctr_da_regra_ctr. now destruct i. }
    assert (Hi1 : da_regra_cpl
              match campanhas_cpl_alto (agrupar_campanhas f) with
              | [] => CPL_sem_alarme
              | _ => Alerta_de_Custo (String.concat ", " nomes)
              end = true).
    { now destruct (campanhas_cpl_alto (agrupar_campanhas f)). }
    rewrite (Hctr _ Hi1). split; [reflexivity|]. split.
    + intros Hm. unfold insight_ctr.
      change (ctr_medio (calcular_kpis f)) with (media (map CTR f)).
      rewrite Hm. now rewrite andb_false_r.
    + cbn [filter]. rewrite Hi1, insight_ctr_fora_da_regra_cpl. reflexivity.
  - repeat split; vm_compute; reflexivity.
  - split; vm_compute; reflexivity.
Qed.

(** A mean CTR of 0.8 on an investment of 100: the warning is shown. *)
Lemma regra_ctr_baixo_witness :
  filter da_regra_ctr
    (insights_de
       (painel [Texto "Meta"] [Texto "Captacao"]
               (carregar_e_processar_dados (csv_uma_linha 8 10)))) =
  [Atencao_ao_CTR (8 / 1000 * 100)].
Proof.
  destruct regra_ctr_baixo as [H _].
  destruct (H [Texto "Meta"] [Texto "Captacao"]
              (carregar_e_processar_dados (csv_uma_linha 8 10)))
    as (Hi & _).
  - vm_compute. discriminate.
  - vm_compute. repeat constructor; eexists; reflexivity.
  - rewrite Hi. vm_compute. reflexivity.
Defined.

(** ** Missing identifiers *)




(** ** The order of the campaign table *)

(** C7, as the specification has it, fails on a file with "Meta" before
    "Google": the table starts with "Google". *)
Lemma ordem_da_tabela_contraexemplo :
  let df := carregar_e_processar_dados csv_duas_plataformas in
  chaves_por_primeira_ocorrencia df =
    [(Texto "Meta", Texto "Captacao"); (Texto "Google", Texto "Marca")] /\
  map chave_da_campanha (agrupar_campanhas df) =
    [(Texto "Google", Texto "Marca"); (Texto "Meta", Texto "Captacao")].
Proof. vm_compute. split; reflexivity. Qed.

(** C7, amended: the rows of the campaign table are in ascending order of
    their (platform, campaign) key, one row for each distinct key of the
    frame, and each row aggregates the rows of the frame that have its key,
    in the order of the frame. *)
Theorem tabela_em_ordem_de_chave (df : list registro) :
  let t := agrupar_campanhas df in
  StronglySorted chave_lt (map chave_da_campanha t) /\
  NoDup (map chave_da_campanha t) /\
  (forall k, In k (map chave_da_campanha t) <->
             exists r, In r df /\ chave_de r = k) /\
  Forall (fun c =>
            c = agregar (chave_da_campanha c)
                        (filter (fun r => chave_eqb (chave_de r)
                                                    (chave_da_campanha c)) df))
         t /\
  (forall k r, In r (filter (fun r => chave_eqb (chave_de r) k) df) <->
               In r df /\ chave_de r = k).
Proof.
  cbv zeta. rewrite chaves_de_agrupar. split; [|split; [|split; [|split]]].
  - apply chaves_grupos_ordenadas.
  - apply chaves_grupos_distintas.
  - apply In_chaves_grupos.
  - unfold agrupar_campanhas. apply Forall_forall. intros c Hc.
    apply in_map_iff in Hc. destruct Hc as ([p c'] & <- & _). reflexivity.
  - intros k r. apply In_grupo.
Qed.

(** ** A filter that leaves nothing *)

(** C8, as the specification has it, fails on a frame of two rows with
    nothing selected: the run shows no KPI panel at all, where the
    specification has one with every field 0. *)
Lemma filtro_vazio_contraexemplo :
  let df := carregar_e_processar_dados csv_duas_plataformas in
  filtrar [] [] df = [] /\
  painel [] [] df = Sem_dados /\
  kpis_de (painel [] [] df) = None.
Proof. vm_compute. repeat split. Qed.

(** C8, amended: when the filter leaves no row the run ends without an
    error and shows the notice that no data was found: no campaign table, no
    insight and no KPI panel. *)
Theorem filtro_vazio_sem_dados (ps cs : list rotulo) (df : list registro) :
  filtrar ps cs df = [] ->
  let e := painel ps cs df in
  e = Sem_dados /\ terminou e = true /\
  tabela_de e = None /\ insights_de e = [] /\ kpis_de e = None.
Proof.
  intros H e. assert (He : e = Sem_dados).
  { subst e. unfold painel. now rewrite H. }
  rewrite He. repeat split.
Qed.

(** Two rows on "Meta" and "Google" with only "TikTok" selected. *)
Lemma filtro_vazio_sem_dados_witness :
  painel [Texto "TikTok"] [Texto "Captacao"; Texto "Marca"]
         (carregar_e_processar_dados csv_duas_plataformas) = Sem_dados.
Proof.
  destruct (filtro_vazio_sem_dados
              [Texto "TikTok"] [Texto "Captacao"; Texto "Marca"]
              (carregar_e_processar_dados csv_duas_plataformas))
    as (H & _).
  - reflexivity.
  - exact H.
Defined.

(** * More of the script *)

(** ** The coercion of line 23 *)

Lemma tratar_spec (x : float) : tratar x = if is_finite x then x else 0.
Proof.
  destruct (is_finite x) eqn:H.
  - now apply tratar_de_finito.
  - now apply tratar_nao_finito, nao_finito_de_is_finite.
Qed.

Lemma numerico_spec (c : celula) :
  numerico c =
  match c with
  | Numero x => if is_nan x then 0 else x
  | NaoNumerico _ => 0
  end.
Proof. destruct c; reflexivity. Qed.

Lemma is_nan_numerico (c : celula) : is_nan (numerico c) = false.
Proof.
  rewrite numerico_spec. destruct c as [x|s]; [|reflexivity].
  destruct (is_nan x) eqn:H; [reflexivity|exact H].
Qed.

(** Line 23 never leaves a [NaN] behind: a text that is not a number and a
    blank cell become 0, any other number is kept, and coercing twice
    changes nothing. *)
Theorem coercao_numerica (c : celula) :
  is_nan (numerico c) = false /\
  (forall s, c = NaoNumerico s -> numerico c = 0) /\
  (forall x, c = Numero x -> is_nan x = true -> numerico c = 0) /\
  (forall x, c = Numero x -> is_nan x = false -> numerico c = x) /\
  numerico (Numero (numerico c)) = numerico c.
Proof.
  split; [apply is_nan_numerico|]. split; [|split; [|split]].
  - now intros s ->.
  - intros x -> H. unfold numerico, fillna, to_numeric. now rewrite H.
  - intros x -> H. unfold numerico, fillna, to_numeric. now rewrite H.
  - unfold numerico at 1. cbn [fillna to_numeric]. now rewrite is_nan_numerico.
Qed.

(** Line 46 on a row: each numeric column other than the CTR holds the
    value lines 21 to 43 computed for it when that value is a finite number
    and 0 otherwise, and the six input columns come out finite. *)
Theorem colunas_numericas_tratadas (l : linha_csv) :
  let r := processar_linha l in
  let v (x : float) := if is_finite x then x else 0 in
  let investimento := numerico (csv_Investimento l) in
  let impressoes := numerico (csv_Impressoes l) in
  let cliques := numerico (csv_Cliques l) in
  let leads := numerico (csv_Leads l) in
  let novos_clientes := numerico (csv_Novos_Clientes l) in
  let outros_custos := numerico (csv_Outros_Custos l) in
  (Investimento r = v investimento /\ Impressoes r = v impressoes /\
   Cliques r = v cliques /\ Leads r = v leads /\
   Novos_Clientes r = v novos_clientes /\ Outros_Custos r = v outros_custos) /\
  (CPC r = v (investimento / cliques) /\
   CPM r = v (investimento / impressoes * 1000) /\
   CPL r = v (investimento / leads) /\
   Custo_Total_Diario r = v (investimento + outros_custos) /\
   CAC_Diario r = v ((investimento + outros_custos) / novos_clientes)) /\
  (is_finite (Investimento r) = true /\ is_finite (Impressoes r) = true /\
   is_finite (Cliques r) = true /\ is_finite (Leads r) = true /\
   is_finite (Novos_Clientes r) = true /\ is_finite (Outros_Custos r) = true).
Proof.
  cbv zeta. unfold processar_linha.
  cbn [Investimento Impressoes Cliques Leads Novos_Clientes Outros_Custos
       CPC CPM CPL Custo_Total_Diario CAC_Diario].
  rewrite <- !tratar_spec.
  repeat split; apply tratar_finito.
Qed.

(** ** Signs *)

Section Sinais.

Lemma leb_zero_positivo (x : float) : (0 <=? x) = true -> sf_positivo (Prim2SF x).
Proof.
  rewrite FloatAxioms.leb_spec. change (Prim2SF 0) with (S754_zero false).
  destruct (Prim2SF x) as [s|s| |s m e]; try destruct s; simpl;
    try discriminate; trivial.
Qed.

Lemma binary_round_aux_positivo (mx ex : Z) (lx : location) :
  sf_positivo_ou_nan (binary_round_aux prec emax false mx ex lx).
Proof.
  unfold binary_round_aux.
  destruct (shr_fexp prec emax mx ex lx) as [mrs' e'].
  destruct (shr_fexp prec emax _ e' loc_Exact) as [mrs'' e''].
  destruct (shr_m mrs''); [exact I| |exact I].
  destruct (Z.leb e'' (Z.sub emax prec)); reflexivity.
Qed.

Lemma positivo_ou_nan_sem_negativo (f : spec_float) :
  sf_positivo_ou_nan f -> sf_sem_negativo_finito f.
Proof. destruct f; simpl; trivial. Qed.

Lemma SFdiv_sem_negativo (a b : spec_float) :
  sf_positivo_ou_nan a -> sf_positivo b -> sf_sem_negativo_finito (SF64div a b).
Proof.
  destruct a as [sa|sa| |sa ma ea], b as [sb|sb| |sb mb eb]; simpl;
    try contradiction; intros Ha Hb; subst; trivial.
  destruct (SFdiv_core_binary prec emax _ _ _ _) as [[mz ez] lz].
  apply positivo_ou_nan_sem_negativo, binary_round_aux_positivo.
Qed.

Lemma SFmul_sem_negativo (a : spec_float) (m : positive) (e : Z) :
  sf_sem_negativo_finito a ->
  sf_sem_negativo_finito (SF64mul a (S754_finite false m e)).
Proof.
  destruct a as [sa|sa| |sa ma ea]; simpl; trivial.
  intros ->. apply positivo_ou_nan_sem_negativo, binary_round_aux_positivo.
Qed.

Lemma tratar_sem_negativo (z : float) :
  sf_sem_negativo_finito (Prim2SF z) -> (0 <=? tratar z) = true.
Proof.
  intros H. rewrite tratar_spec.
  destruct (is_finite z) eqn:Hf; [|reflexivity].
  rewrite FloatAxioms.leb_spec. change (Prim2SF 0) with (S754_zero false).
  destruct (Prim2SF z) as [s|s| |s m e] eqn:E; simpl in *; subst; try reflexivity.
  - apply infinity_of_SF in E. rewrite E in Hf. now destruct s.
  - apply nan_of_SF in E. now rewrite E in Hf.
Qed.

Lemma positivo_ou_nan_de_leb (x : float) :
  (0 <=? x) = true -> sf_positivo_ou_nan (Prim2SF x).
Proof.
  intros H. apply leb_zero_positivo in H. now destruct (Prim2SF x).
Qed.

Lemma limitar_ctr_sem_negativo (x : float) :
  sf_sem_negativo_finito (Prim2SF x) ->
  sf_sem_negativo_finito (Prim2SF (limitar_ctr x)).
Proof. unfold limitar_ctr. now destruct (x <=? 100). Qed.

Lemma vezes_constante_sem_negativo (x c : float) (m : positive) (e : Z) :
  Prim2SF c = S754_finite false m e ->
  sf_sem_negativo_finito (Prim2SF x) ->
  sf_sem_negativo_finito (Prim2SF (x * c)).
Proof.
  intros Hc Hx. rewrite mul_spec, Hc. now apply SFmul_sem_negativo.
Qed.

End Sinais.

(** A row whose investment, impressions, clicks and leads are not negative
    has no negative CTR, CPC, CPM or CPL: each is a quotient, which pandas
    computes in binary64 whatever the type of the columns. *)
Theorem metricas_nao_negativas (l : linha_csv) :
  (0 <=? numerico (csv_Investimento l)) = true ->
  (0 <=? numerico (csv_Impressoes l)) = true ->
  (0 <=? numerico (csv_Cliques l)) = true ->
  (0 <=? numerico (csv_Leads l)) = true ->
  let r := processar_linha l in
  (0 <=? CTR r) = true /\ (0 <=? CPC r) = true /\
  (0 <=? CPM r) = true /\ (0 <=? CPL r) = true.
Proof.
  intros Hinv Himp Hcli Hlea. cbv zeta. unfold processar_linha.
  cbn [CTR CPC CPM CPL].
  assert (Hq : forall x y, (0 <=? x) = true -> (0 <=? y) = true ->
                 sf_sem_negativo_finito (Prim2SF (x / y))).
  { intros x y Hx Hy. rewrite div_spec.
    apply SFdiv_sem_negativo;
      [now apply positivo_ou_nan_de_leb|now apply leb_zero_positivo]. }
  split; [|split; [|split]].
  - apply tratar_sem_negativo, limitar_ctr_sem_negativo.
    eapply vezes_constante_sem_negativo; [vm_compute; reflexivity|].
    now apply Hq.
  - now apply tratar_sem_negativo, Hq.
  - apply tratar_sem_negativo.
    eapply vezes_constante_sem_negativo; [vm_compute; reflexivity|].
    now apply Hq.
  - now apply tratar_sem_negativo, Hq.
Qed.

(** ** The sidebar *)

Section Sidebar.

Lemma filter_todos {A : Type} (f : A -> bool) (l : list A) :
  (forall x, In x l -> f x = true) -> filter f l = l.
Proof.
  induction l as [|a l IH]; intros H; simpl; [reflexivity|].
  rewrite (H a (or_introl eq_refl)), IH; [reflexivity|].
  intros x Hx. apply H. now right.
Qed.

Lemma NoDup_primeiras_fold (col vistos : list rotulo) :
  NoDup vistos ->
  NoDup (fold_left
           (fun vistos x =>
              if existsb (rotulo_eqb x) vistos then vistos else vistos ++ [x])
           col vistos).
Proof.
  revert vistos. induction col as [|y col IH]; intros vistos Hv; simpl;
    [exact Hv|].
  apply IH. destruct (existsb (rotulo_eqb y) vistos) eqn:He; [exact Hv|].
  apply NoDup_app; [exact Hv|repeat constructor; intros []|].
  intros x Hx [<-|[]].
  apply (isin_In y vistos) in Hx. unfold isin in Hx. congruence.
Qed.

Lemma NoDup_unique (col : list rotulo) : NoDup (unique col).
Proof. apply NoDup_primeiras_fold. constructor. Qed.

Lemma df_filtrado_padrao_id (df : list registro) : df_filtrado_padrao df = df.
Proof.
  unfold df_filtrado_padrao, filtrar. apply filter_todos. intros r Hr.
  pose proof (df_filtrado_padrao_todo df r Hr) as H.
  unfold df_filtrado_padrao, filtrar in H. now apply filter_In in H.
Qed.

End Sidebar.

(** Lines 58 to 62: the platform multiselect offers each platform of the
    frame once. *)
Theorem opcoes_de_plataforma (df : list registro) :
  NoDup (plataformas_padrao df) /\
  (forall p, In p (plataformas_padrao df) <-> exists r, In r df /\ Plataforma r = p).
Proof.
  split; [apply NoDup_unique|].
  intros p. unfold plataformas_padrao. rewrite In_unique, in_map_iff.
  split; intros (r & H1 & H2); exists r; now split.
Qed.

(** Lines 65 to 69: the campaign multiselect offers, once each, the
    campaigns of the rows whose platform is selected. *)
Theorem opcoes_de_campanha (df : list registro) (ps : list rotulo) :
  NoDup (campanhas_padrao df ps) /\
  (forall c, In c (campanhas_padrao df ps) <->
             exists r, In r df /\ In (Plataforma r) ps /\ Campanha r = c).
Proof.
  split; [apply NoDup_unique|].
  intros c. unfold campanhas_padrao. rewrite In_unique, in_map_iff. split.
  - intros (r & Hc & Hr). apply filter_In in Hr. destruct Hr as [Hr Hp].
    exists r. split; [exact Hr|]. split; [now apply isin_In|exact Hc].
  - intros (r & Hr & Hp & Hc). exists r. split; [exact Hc|].
    apply filter_In. split; [exact Hr|now apply isin_In].
Qed.

(** With the sidebar as it starts no row is filtered out, and the notice
    that no data was found is shown only for a file without rows. *)
Theorem sidebar_inicial_mostra_tudo (csv : list linha_csv) :
  df_filtrado_padrao (carregar_e_processar_dados csv) =
  carregar_e_processar_dados csv /\
  (app csv = Sem_dados <-> csv = []).
Proof.
  split; [apply df_filtrado_padrao_id|].
  unfold app. set (df := carregar_e_processar_dados csv). split.
  - intros H. destruct csv as [|l csv]; [reflexivity|exfalso].
    assert (Hne : df_filtrado_padrao df <> []).
    { rewrite df_filtrado_padrao_id. discriminate. }
    pose proof (kpis_do_painel _ _ _ Hne) as Hk. rewrite H in Hk. discriminate.
  - intros ->. reflexivity.
Qed.

(** Lines 72 to 75: the filtered frame holds the rows whose platform and
    campaign are both selected; filtering again changes nothing; and with no
    platform or no campaign selected the run shows the no-data notice. *)
Theorem filtrar_selecao (ps cs : list rotulo) (df : list registro) :
  (forall r, In r (filtrar ps cs df) <->
             In r df /\ In (Plataforma r) ps /\ In (Campanha r) cs) /\
  filtrar ps cs (filtrar ps cs df) = filtrar ps cs df /\
  (ps = [] \/ cs = [] -> painel ps cs df = Sem_dados).
Proof.
  split; [|split].
  - intros r. unfold filtrar. rewrite filter_In, andb_true_iff, !isin_In. tauto.
  - unfold filtrar. apply filter_todos. intros r Hr. now apply filter_In in Hr.
  - intros H. assert (He : filtrar ps cs df = []).
    { unfold filtrar. destruct H as [-> | ->].
      - induction df as [|r df IH]; [reflexivity|exact IH].
      - induction df as [|r df IH]; [reflexivity|].
        simpl. rewrite andb_false_r. exact IH. }
    unfold painel. now rewrite He.
Qed.

(** ** The groups of [groupby] *)

Section Grupos.

Lemma ordenadas_iguais (ks ks' : list chave) :
  StronglySorted chave_lt ks -> StronglySorted chave_lt ks' ->
  (forall k, In k ks <-> In k ks') -> ks = ks'.
Proof.
  intros Hs. revert ks'.
  induction Hs as [|a ks Hs IH Ha]; intros ks' Hs' Hin.
  - destruct ks' as [|b ks']; [reflexivity|].
    destruct (proj2 (Hin b) (or_introl eq_refl)).
  - destruct Hs' as [|b ks' Hs' Hb].
    { destruct (proj1 (Hin a) (or_introl eq_refl)). }
    rewrite Forall_forall in Ha, Hb.
    assert (Hab : a = b).
    { destruct (proj1 (Hin a) (or_introl eq_refl)) as [E|Ea]; [now symmetry|].
      destruct (proj2 (Hin b) (or_introl eq_refl)) as [E|Eb]; [exact E|].
      exfalso. apply (chave_lt_irrefl a).
      eapply chave_lt_trans; [apply Ha, Eb|apply Hb, Ea]. }
    subst b. f_equal. apply IH; [exact Hs'|].
    intros k. split; intros Hk.
    + destruct (proj1 (Hin k) (or_intror Hk)) as [E|Hk']; [|exact Hk'].
      subst k. exfalso. exact (chave_lt_irrefl a (Ha a Hk)).
    + destruct (proj2 (Hin k) (or_intror Hk)) as [E|Hk']; [|exact Hk'].
      subst k. exfalso. exact (chave_lt_irrefl a (Hb a Hk)).
Qed.

Lemma contagem_da_chave (k0 : chave) (ks : list chave) :
  NoDup ks ->
  list_sum (map (fun k => if chave_eqb k0 k then 1 else 0)%nat ks) =
  if existsb (chave_eqb k0) ks then 1%nat else 0%nat.
Proof.
  induction 1 as [|k ks Hk Hnd IH]; simpl; [reflexivity|].
  rewrite IH. destruct (chave_eqb k0 k) eqn:E; simpl; [|reflexivity].
  apply chave_eqb_eq in E. subst k0.
  destruct (existsb (chave_eqb k) ks) eqn:Ex; [|reflexivity].
  apply existsb_exists in Ex. destruct Ex as (k' & Hk' & E).
  apply chave_eqb_eq in E. subst k'. contradiction.
Qed.

Lemma tamanho_dos_grupos (df : list registro) (ks : list chave) :
  NoDup ks ->
  (forall r, In r df -> In (chave_de r) ks) ->
  list_sum (map (fun k => List.length (grupo k df)) ks) = List.length df.
Proof.
  intros Hnd. induction df as [|r df IH]; intros Hin.
  - clear Hnd Hin. induction ks as [|k ks IHk]; [reflexivity|exact IHk].
  - assert (E : forall k, List.length (grupo k (r :: df)) =
                     ((if chave_eqb (chave_de r) k then 1 else 0)
                      + List.length (grupo k df))%nat).
    { intros k. unfold grupo. simpl. now destruct (chave_eqb (chave_de r) k). }
    rewrite (map_ext _ _ E).
    assert (S : forall (f g : chave -> nat) l,
               list_sum (map (fun k => (f k + g k)%nat) l) =
               (list_sum (map f l) + list_sum (map g l))%nat).
    { intros f g l. induction l; simpl; lia. }
    rewrite S, IH, (contagem_da_chave _ _ Hnd).
    + assert (Ex : existsb (chave_eqb (chave_de r)) ks = true).
      { apply existsb_exists. exists (chave_de r).
        split; [apply Hin; now left|now apply chave_eqb_eq]. }
      rewrite Ex. reflexivity.
    + intros r' Hr'. apply Hin. now right.
Qed.

End Grupos.

(** [groupby] loses no row and counts none twice: the sizes of the groups
    add up to the number of rows of the frame, no group is empty, there are
    no more groups than rows, and the table is empty only for an empty
    frame. *)
Theorem grupos_particionam (df : list registro) :
  let t := agrupar_campanhas df in
  list_sum (map (fun c => List.length (grupo (chave_da_campanha c) df)) t) =
  List.length df /\
  Forall (fun c => grupo (chave_da_campanha c) df <> []) t /\
  (List.length t <= List.length df)%nat /\
  (t = [] <-> df = []).
Proof.
  cbv zeta.
  assert (Hsum : list_sum
            (map (fun c => List.length (grupo (chave_da_campanha c) df))
                 (agrupar_campanhas df)) = List.length df).
  { rewrite <- (map_map chave_da_campanha (fun k => List.length (grupo k df))).
    rewrite chaves_de_agrupar. apply tamanho_dos_grupos.
    - apply chaves_grupos_distintas.
    - intros r Hr. apply In_chaves_grupos. now exists r. }
  assert (Hne : Forall (fun c => grupo (chave_da_campanha c) df <> [])
                       (agrupar_campanhas df)).
  { apply Forall_forall. intros c Hc.
    destruct (campanha_da_tabela df c Hc) as (r & Hr & Hk).
    intros He. assert (Hin : In r (grupo (chave_da_campanha c) df)).
    { now apply In_grupo. }
    rewrite He in Hin. exact Hin. }
  split; [exact Hsum|]. split; [exact Hne|].
  assert (Hlen : (List.length (agrupar_campanhas df) <= List.length df)%nat).
  { rewrite <- Hsum. clear Hsum.
    induction Hne as [|c t Hc _ IH]; simpl; [lia|].
    destruct (grupo (chave_da_campanha c) df); [congruence|simpl; lia]. }
  split; [exact Hlen|]. split.
  - intros Ht. rewrite Ht in Hsum. simpl in Hsum.
    destruct df; [reflexivity|discriminate].
  - intros ->. reflexivity.
Qed.

(** The keys of the campaign table, and their order, do not depend on the
    order of the rows of the frame. *)
Theorem chaves_sem_ordem_das_linhas (df df' : list registro) :
  Permutation df df' ->
  map chave_da_campanha (agrupar_campanhas df) =
  map chave_da_campanha (agrupar_campanhas df').
Proof.
  intros Hp. rewrite !chaves_de_agrupar.
  apply ordenadas_iguais; try apply chaves_grupos_ordenadas.
  intros k. rewrite !In_chaves_grupos.
  split; intros (r & Hr & Hk); exists r; split; try exact Hk.
  - now apply (Permutation_in _ Hp).
  - now apply (Permutation_in _ (Permutation_sym Hp)).
Qed.

(** When every row of the frame has the same key the table has one row,
    under that key, and its group is the whole frame. *)
Theorem uma_so_campanha (df : list registro) (k : chave) :
  df <> [] ->
  (forall r, In r df -> chave_de r = k) ->
  map chave_da_campanha (agrupar_campanhas df) = [k] /\
  List.length (agrupar_campanhas df) = 1%nat /\
  filter (fun r => chave_eqb (chave_de r) k) df = df.
Proof.
  intros Hne Hk.
  assert (Hks : chaves_grupos df = [k]).
  { apply ordenadas_iguais.
    - apply chaves_grupos_ordenadas.
    - repeat constructor.
    - intros k'. rewrite In_chaves_grupos. split.
      + intros (r & Hr & <-). left. symmetry. now apply Hk.
      + intros [<-|[]]. destruct df as [|r df]; [congruence|].
        exists r. split; [now left|]. apply Hk. now left. }
  split; [|split].
  - now rewrite chaves_de_agrupar.
  - unfold agrupar_campanhas. now rewrite length_map, Hks.
  - apply filter_todos. intros r Hr. apply chave_eqb_eq. now apply Hk.
Qed.

(** ** When line 133 raises *)

Section TypeError.

Lemma textos_None (itens : list rotulo) : textos itens = None <-> In Int0 itens.
Proof.
  induction itens as [|[s|] itens IH]; simpl.
  - split; [discriminate|intros []].
  - destruct (textos itens) as [ss|].
    + split; [discriminate|]. intros [H|H]; [discriminate|].
      now apply IH in H.
    + split; [|reflexivity]. intros _. right. now apply IH.
  - split; [now left|reflexivity].
Qed.

Lemma insight_cpl_None (t : list Campanhas.resumo) :
  insight_cpl t = None <->
  In Int0 (map Campanhas.Campanha (campanhas_cpl_alto t)).
Proof.
  unfold insight_cpl, join. rewrite <- textos_None.
  destruct (campanhas_cpl_alto t) as [|c altos]; [split; discriminate|].
  destruct (textos (map Campanhas.Campanha (c :: altos)));
    split; congruence.
Qed.

End TypeError.

(** When a row of the table above the CPL limit has the filled campaign 0,
    line 133 raises: the KPI panel and the table were already shown, no
    insight is.  A frame whose campaigns are all texts never raises there,
    whatever its platforms. *)
Theorem erro_no_alerta (ps cs : list rotulo) (df : list registro) :
  let e := painel ps cs df in
  ((exists c, In c (agrupar_campanhas (filtrar ps cs df)) /\
              (cpl_limite_alerta <? Campanhas.CPL_Medio c) = true /\
              Campanhas.Campanha c = Int0) ->
   terminou e = false /\
   kpis_de e = Some (calcular_kpis (filtrar ps cs df)) /\
   tabela_de e = Some (agrupar_campanhas (filtrar ps cs df)) /\
   insights_de e = []) /\
  (Forall (fun r => exists s, Campanha r = Texto s) (filtrar ps cs df) ->
   terminou e = true).
Proof.
  cbv zeta. set (f := filtrar ps cs df).
  assert (Hiff : insight_cpl (agrupar_campanhas f) = None <->
                 exists c, In c (agrupar_campanhas f) /\
                   (cpl_limite_alerta <? Campanhas.CPL_Medio c) = true /\
                   Campanhas.Campanha c = Int0).
  { rewrite insight_cpl_None, in_map_iff. unfold campanhas_cpl_alto.
    split; intros (c & H1 & H2).
    - apply filter_In in H2. exists c. tauto.
    - exists c. split; [tauto|]. apply filter_In. tauto. }
  assert (Hnome : Forall (fun r => exists s, Campanha r = Texto s) f ->
                  insight_cpl (agrupar_campanhas f) <> None).
  { intros Hf Hn. apply Hiff in Hn. destruct Hn as (c & Hc & _ & H0).
    destruct (campanha_da_tabela f c Hc) as (r & Hr & Hk).
    rewrite Forall_forall in Hf. destruct (Hf r Hr) as [s Hs].
    assert (E : snd (chave_de r) = snd (chave_da_campanha c)) by now rewrite Hk.
    simpl in E. congruence. }
  destruct f as [|r f'] eqn:Ef.
  - assert (He : painel ps cs df = Sem_dados).
    { unfold painel. fold f. now rewrite Ef. }
    rewrite He. split; [|reflexivity]. now intros (c & [] & _).
  - assert (Hne : filtrar ps cs df <> []).
    { fold f. rewrite Ef. discriminate. }
    rewrite (painel_nao_vazio ps cs df Hne). fold f. rewrite Ef.
    rewrite <- Hiff.
    destruct (insight_cpl (agrupar_campanhas (r :: f'))); simpl.
    + split; [discriminate|reflexivity].
    + split; [intros _; repeat split|].
      intros Hf. now destruct (Hnome Hf).
Qed.

Lemma filter_nenhum {A : Type} (f : A -> bool) (l : list A) :
  (forall x, In x l -> f x = false) -> filter f l = [].
Proof.
  induction l as [|a l IH]; intros H; simpl; [reflexivity|].
  rewrite (H a (or_introl eq_refl)). apply IH.
  intros x Hx. apply H. now right.
Qed.

(** ** Columns of zeros *)

Section ColunasDeZeros.

Lemma zero_mais_zero (y : float) : is_zero y = true -> 0 + y = 0.
Proof.
  intros Hy. destruct (Prim2SF_zero y Hy) as [s Hs].
  apply Prim2SF_inj. rewrite add_spec, Hs.
  change (Prim2SF 0) with (S754_zero false). now destruct s.
Qed.

Lemma soma_de_zeros (col : list float) :
  Forall (fun x => is_zero x = true) col -> soma col = 0.
Proof.
  unfold soma. induction 1 as [|x col Hx _ IH]; simpl; [reflexivity|].
  now rewrite (zero_mais_zero x Hx).
Qed.

Lemma zero_sobre_nao_acima (c y : float) (m : positive) (e : Z) :
  Prim2SF c = S754_finite false m e -> (c <? 0 / y) = false.
Proof.
  intros Hc. rewrite FloatAxioms.ltb_spec, div_spec, Hc.
  change (Prim2SF 0) with (S754_zero false).
  destruct (Prim2SF y) as [s|s| |s m' e']; reflexivity.
Qed.

Lemma is_zero_tratar (x : float) : is_zero x = true -> is_zero (tratar x) = true.
Proof.
  intros Hx. destruct (tratar_casos x) as [E|E]; rewrite E;
    [reflexivity|exact Hx].
Qed.

Lemma media_de_zeros_nao_acima (col : list float) :
  Forall (fun x => is_zero x = true) col ->
  (cpl_limite_alerta <? media col) = false.
Proof.
  intros H. unfold media. rewrite (soma_de_zeros col H).
  eapply zero_sobre_nao_acima. vm_compute. reflexivity.
Qed.

End ColunasDeZeros.

Section SemLeads.

Variable csv : list linha_csv.
Variables ps cs : list rotulo.

Let f := filtrar ps cs (carregar_e_processar_dados csv).

Lemma linha_do_filtro (r : registro) :
  In r f -> exists l, In l csv /\ processar_linha l = r.
Proof.
  intros Hr. apply filter_In in Hr. destruct Hr as [Hr _].
  apply in_map_iff in Hr. destruct Hr as (l & E & Hl). now exists l.
Qed.

Lemma coluna_do_filtro (P : registro -> Prop) :
  (forall l, In l csv -> P (processar_linha l)) -> Forall P f.
Proof.
  intros H. apply Forall_forall. intros r Hr.
  destruct (linha_do_filtro r Hr) as (l & Hl & <-). now apply H.
Qed.

Lemma coluna_do_grupo (P : registro -> Prop) (k : chave) :
  Forall P f -> Forall P (grupo k f).
Proof.
  rewrite !Forall_forall. intros H r Hr. apply H. now apply In_grupo in Hr.
Qed.

End SemLeads.

(** Without a single lead the CPL of every row is 0, no campaign is above
    the limit whatever was spent, the CPL rule shows the all-clear and the
    CPL of the KPI panel is 0. *)
Theorem sem_leads_sem_alerta (csv : list linha_csv) (ps cs : list rotulo) :
  (forall l, In l csv -> is_zero (numerico (csv_Leads l)) = true) ->
  let f := filtrar ps cs (carregar_e_processar_dados csv) in
  let e := painel ps cs (carregar_e_processar_dados csv) in
  Forall (fun r => CPL r = 0) f /\
  campanhas_cpl_alto (agrupar_campanhas f) = [] /\
  (f <> [] ->
   insights_de e = CPL_sem_alarme :: insight_ctr (calcular_kpis f) /\
   cpl_medio (calcular_kpis f) = 0).
Proof.
  intros Hz f e.
  assert (Hcpl : Forall (fun r => CPL r = 0) f).
  { apply coluna_do_filtro. intros l Hl.
    now apply (metricas_da_linha l), Hz. }
  assert (Halt : campanhas_cpl_alto (agrupar_campanhas f) = []).
  { apply filter_nenhum. intros c Hc. unfold agrupar_campanhas in Hc.
    apply in_map_iff in Hc. destruct Hc as (k & <- & _).
    cbn [Campanhas.CPL_Medio agregar].
    apply media_de_zeros_nao_acima, Forall_map.
    eapply Forall_impl; [|apply (coluna_do_grupo csv ps cs _ k Hcpl)].
    intros r ->. reflexivity. }
  split; [exact Hcpl|]. split; [exact Halt|].
  intros Hne. split.
  - subst e. rewrite (painel_nao_vazio _ _ _ Hne). fold f.
    unfold insight_cpl. now rewrite Halt.
  - cbn [cpl_medio calcular_kpis].
    rewrite (soma_de_zeros (map Leads f)); [reflexivity|].
    apply Forall_map, coluna_do_filtro. intros l Hl.
    unfold processar_linha. cbn [Leads]. now apply is_zero_tratar, Hz.
Qed.

(** Without a single new client the daily CAC of every row and the CAC of
    the KPI panel are 0. *)
Theorem sem_clientes_cac_zero (csv : list linha_csv) (ps cs : list rotulo) :
  (forall l, In l csv -> is_zero (numerico (csv_Novos_Clientes l)) = true) ->
  let f := filtrar ps cs (carregar_e_processar_dados csv) in
  Forall (fun r => CAC_Diario r = 0) f /\ cac_geral (calcular_kpis f) = 0.
Proof.
  intros Hz f. split.
  - apply coluna_do_filtro. intros l Hl. now apply (metricas_da_linha l), Hz.
  - cbn [cac_geral calcular_kpis].
    rewrite (soma_de_zeros (map Novos_Clientes f)); [reflexivity|].
    apply Forall_map, coluna_do_filtro. intros l Hl.
    unfold processar_linha. cbn [Novos_Clientes]. now apply is_zero_tratar, Hz.
Qed.

(** ** The properties above on the example files *)

(** The row of the scenario: every number positive. *)
Lemma metricas_nao_negativas_witness :
  let r := processar_linha (linha "Meta" "Captacao" 100 1000 50 10 2 20) in
  (0 <=? CTR r) = true /\ (0 <=? CPC r) = true /\
  (0 <=? CPM r) = true /\ (0 <=? CPL r) = true.
Proof.
  apply (metricas_nao_negativas (linha "Meta" "Captacao" 100 1000 50 10 2 20));
    reflexivity.
Defined.

(** The file with two campaigns, read forwards and backwards. *)
Lemma chaves_sem_ordem_das_linhas_witness :
  map chave_da_campanha
    (agrupar_campanhas (carregar_e_processar_dados csv_duas_plataformas)) =
  map chave_da_campanha
    (agrupar_campanhas (rev (carregar_e_processar_dados csv_duas_plataformas))).
Proof.
  apply chaves_sem_ordem_das_linhas, Permutation_rev.
Defined.

(** The two rows of the campaign "Captacao" on "Meta". *)
Lemma uma_so_campanha_witness :
  map chave_da_campanha
    (agrupar_campanhas (carregar_e_processar_dados csv_assimetrico)) =
  [(Texto "Meta", Texto "Captacao")].
Proof.
  destruct (uma_so_campanha (carregar_e_processar_dados csv_assimetrico)
              (Texto "Meta", Texto "Captacao")) as (Hk & _).
  - vm_compute. discriminate.
  - intros r [<-|[<-|[]]]; reflexivity.
  - exact Hk.
Defined.

(** 1400 spent on two campaigns without a lead: the all-clear, and a CPL of
    0 in the KPI panel. *)
Lemma sem_leads_sem_alerta_witness :
  insights_de (app csv_sem_resultado) = [CPL_sem_alarme] /\
  option_map cpl_medio (kpis_de (app csv_sem_resultado)) = Some 0.
Proof.
  destruct (sem_leads_sem_alerta csv_sem_resultado
              [Texto "Meta"; Texto "Google"] [Texto "Captacao"; Texto "Marca"])
    as (_ & _ & H).
  - intros l [<-|[<-|[]]]; reflexivity.
  - destruct H as [Hi Hc]; [vm_compute; discriminate|].
    split.
    + change (app csv_sem_resultado)
        with (painel [Texto "Meta"; Texto "Google"]
                     [Texto "Captacao"; Texto "Marca"]
                     (carregar_e_processar_dados csv_sem_resultado)).
      rewrite Hi. vm_compute. reflexivity.
    + vm_compute. reflexivity.
Defined.

(** The same file has no new client either. *)
Lemma sem_clientes_cac_zero_witness :
  cac_geral
    (calcular_kpis
       (filtrar [Texto "Meta"; Texto "Google"] [Texto "Captacao"; Texto "Marca"]
                (carregar_e_processar_dados csv_sem_resultado))) = 0.
Proof.
  destruct (sem_clientes_cac_zero csv_sem_resultado
              [Texto "Meta"; Texto "Google"] [Texto "Captacao"; Texto "Marca"])
    as (_ & H).
  - intros l [<-|[<-|[]]]; reflexivity.
  - exact H.
Defined.

(** A row without a campaign and with a CPL of 100: line 133 raises. *)
Lemma erro_no_alerta_witness :
  terminou (painel [Texto "Meta"] [Int0]
              (carregar_e_processar_dados [linha_sem_campanha 50 1])) = false /\
  insights_de (painel [Texto "Meta"] [Int0]
                 (carregar_e_processar_dados [linha_sem_campanha 50 1])) = [].
Proof.
  destruct (erro_no_alerta [Texto "Meta"] [Int0]
              (carregar_e_processar_dados [linha_sem_campanha 50 1]))
    as [H _].
  destruct H as (Hfim & _ & _ & Hins).
  - eexists. split; [left; reflexivity|]. split; reflexivity.
  - split; [exact Hfim|exact Hins].
Defined.
